(** * corejam.argparse: the custom argument parser and the run guard

    A shallow embedding of [src/corejam/argparse.py].  The module has two
    parts: the class [CustomArgParser], which overrides the banners and the
    error exit of [argparse.ArgumentParser], and the context manager
    [jam_parser], which wraps one command-line invocation in a single
    [try ... except] statement.

    Python's effects are made explicit: a computation takes the process
    state (standard streams, log channels, [sys.argv], the namespaces that
    were allocated) and either returns a value or raises an exception.
    [sys.exit] raises [SystemExit], as in Python, so that the [except]
    clauses of the guard are consulted for it like for any other
    exception. *)

From Stdlib Require Import Ascii String ZArith.
From stdpp Require Import gmap strings list.

(** ** Values, exceptions and the process state *)

(** The Python values this module stores and formats: [None], booleans
    and strings. *)
Inductive pyval :=
| PNone
| PBool (b : bool)
| PStr (s : string).

(** [str(v)], which is also what an f-string field [{v}] renders. *)
Definition py_str (v : pyval) : string :=
  match v with
  | PNone => "None"
  | PBool true => "True"
  | PBool false => "False"
  | PStr s => s
  end.

(** The newline character of the source's ['\n']. *)
Definition nl : string := String "010"%char "".

(** [s * n] on strings. *)
Fixpoint str_mul (s : string) (n : nat) : string :=
  match n with
  | O => ""
  | S k => s +:+ str_mul s k
  end.

(** [sep.join(lines)]. *)
Fixpoint join (sep : string) (lines : list string) : string :=
  match lines with
  | [] => ""
  | [x] => x
  | x :: rest => x +:+ sep +:+ join sep rest
  end.

(** The classes the guard's [except] clauses tell apart.  An exception is
    filed under the first of [KeyboardInterrupt], [JAMException] and
    [Exception] that its type derives from, and under [BaseException]
    when it derives from none of them ([GeneratorExit], say).
    [JAMException] is the domain exception of [corejam.exceptions]. *)
Inductive pyclass :=
| KeyboardInterrupt
| JAMException
| Exception
| BaseException.

(** A raised exception: [SystemExit(code)], which is what [sys.exit(code)]
    raises, or an exception of one of the classes above with
    [type(e).__name__] and [str(e)].  The exceptions described are those
    whose [str(e)] returns; one whose [__str__] raises is not among
    them. *)
Inductive exn :=
| SystemExit (code : Z)
| Raised (cls : pyclass) (name : string) (msg : string).

Inductive stream := Stdout | Stderr.

Inductive level := ERROR | INFO.

(** [argparse.Namespace]: attribute name to value. *)
Abbreviation Namespace := (gmap string pyval).

(** The six arguments of one call of [logger_setup]. *)
Record setup_call := {
  sc_out_dir : pyval;
  sc_filename : string;
  sc_title : string;
  sc_version : string;
  sc_flag : bool;
  sc_debug : pyval
}.

(** The process state.  Streams and channels hold what was written to
    them, oldest first.  The streams hold what this module writes to them
    itself; what the handlers of a log channel do with a record (console,
    file) belongs to the logging subsystem and is not told here.  [w_heap] holds the [Namespace] objects created so
    far; an object is referred to by its position.  [w_parses] counts the
    calls of [parse_args]. *)
Record world := {
  w_argv : list string;
  w_stdout : list string;
  w_stderr : list string;
  w_default : list (level * string);
  w_warnings : list (level * string);
  w_heap : list Namespace;
  w_setup : list setup_call;
  w_parses : nat
}.

(** The state after one more write to a stream. *)
Definition put (file : stream) (text : string) (w : world) : world :=
  match file with
  | Stdout =>
      {| w_argv := w_argv w; w_stdout := w_stdout w ++ [text];
         w_stderr := w_stderr w; w_default := w_default w;
         w_warnings := w_warnings w; w_heap := w_heap w;
         w_setup := w_setup w; w_parses := w_parses w |}
  | Stderr =>
      {| w_argv := w_argv w; w_stdout := w_stdout w;
         w_stderr := w_stderr w ++ [text]; w_default := w_default w;
         w_warnings := w_warnings w; w_heap := w_heap w;
         w_setup := w_setup w; w_parses := w_parses w |}
  end.

(** The state after one more record on the default channel. *)
Definition put_default (l : level) (text : string) (w : world) : world :=
  {| w_argv := w_argv w; w_stdout := w_stdout w; w_stderr := w_stderr w;
     w_default := w_default w ++ [(l, text)];
     w_warnings := w_warnings w; w_heap := w_heap w;
     w_setup := w_setup w; w_parses := w_parses w |}.

(** The state after one more record on the warnings channel. *)
Definition put_warnings (l : level) (text : string) (w : world) : world :=
  {| w_argv := w_argv w; w_stdout := w_stdout w; w_stderr := w_stderr w;
     w_default := w_default w;
     w_warnings := w_warnings w ++ [(l, text)]; w_heap := w_heap w;
     w_setup := w_setup w; w_parses := w_parses w |}.

(** The state after a new [Namespace] object was created. *)
Definition new_namespace (ns : Namespace) (w : world) : world :=
  {| w_argv := w_argv w; w_stdout := w_stdout w; w_stderr := w_stderr w;
     w_default := w_default w; w_warnings := w_warnings w;
     w_heap := w_heap w ++ [ns]; w_setup := w_setup w;
     w_parses := w_parses w |}.

(** The state after one more call of [logger_setup]. *)
Definition record_setup (c : setup_call) (w : world) : world :=
  {| w_argv := w_argv w; w_stdout := w_stdout w; w_stderr := w_stderr w;
     w_default := w_default w; w_warnings := w_warnings w;
     w_heap := w_heap w; w_setup := w_setup w ++ [c];
     w_parses := w_parses w |}.

(** The state after one more call of [parse_args]. *)
Definition count_parse (w : world) : world :=
  {| w_argv := w_argv w; w_stdout := w_stdout w; w_stderr := w_stderr w;
     w_default := w_default w; w_warnings := w_warnings w;
     w_heap := w_heap w; w_setup := w_setup w;
     w_parses := S (w_parses w) |}.

(** ** Computations that may raise *)

Inductive result (A : Type) :=
| Return (a : A)
| Raise (e : exn).
Arguments Return {A} a.
Arguments Raise {A} e.

Definition M (A : Type) : Type := world -> result A * world.

Definition ret {A} (a : A) : M A := fun w => (Return a, w).

Definition raise {A} (e : exn) : M A := fun w => (Raise e, w).

Definition bind {A B} (c : M A) (k : A -> M B) : M B :=
  fun w =>
    match c w with
    | (Return a, w') => k a w'
    | (Raise e, w') => (Raise e, w')
    end.

(** [try: c  except ...: h e], where [h] raises again what no clause
    matches. *)
Definition try_except {A} (c : M A) (h : exn -> M A) : M A :=
  fun w =>
    match c w with
    | (Return a, w') => (Return a, w')
    | (Raise e, w') => h e w'
    end.

Notation "x <- c ;; k" := (bind c (fun x => k))
  (at level 100, c at next level, right associativity).
Notation "c ;;; k" := (bind c (fun _ => k))
  (at level 100, right associativity).

(** [file.write(text)]. *)
Definition write (file : stream) (text : string) : M unit :=
  fun w => (Return tt, put file text w).

(** [logging.getLogger('default').error(text)]. *)
Definition log_error (text : string) : M unit :=
  fun w => (Return tt, put_default ERROR text w).

(** [logging.getLogger('warnings').info(text)]. *)
Definition warn_info (text : string) : M unit :=
  fun w => (Return tt, put_warnings INFO text w).

(** [sys.exit(status)]. *)
Definition sys_exit {A} (status : Z) : M A := raise (SystemExit status).

(** Reading [sys.argv]. *)
Definition get_argv : M (list string) := fun w => (Return (w_argv w), w).

(** One more call of [parse_args] is counted. *)
Definition note_parse : M unit := fun w => (Return tt, count_parse w).

(** A new [Namespace] object; the result refers to it. *)
Definition alloc (ns : Namespace) : M nat :=
  fun w => (Return (length (w_heap w)), new_namespace ns w).

(** The attribute [name] of the object [r], [None] when [hasattr] is
    false. *)
Definition getattr (r : nat) (name : string) : M (option pyval) :=
  fun w => (Return (w_heap w !! r ≫= fun ns => ns !! name), w).

(** Modelled from the spec: [corejam.logging.logger_setup] is not among the
    sources.  It is the single initialisation call of the logging
    subsystem, taking the output directory or none, the log file name, the
    title, the version, a fixed flag and the debug flag; the call is
    recorded with its arguments. *)
Definition logger_setup (out_dir : pyval) (filename title version : string)
    (flag : bool) (debug : pyval) : M unit :=
  fun w =>
    (Return tt,
     record_setup
       {| sc_out_dir := out_dir; sc_filename := filename;
          sc_title := title; sc_version := version; sc_flag := flag;
          sc_debug := debug |} w).

(** ** The custom parser *)

(** What the base class [argparse.ArgumentParser] holds: the program name
    and the argument grammar the caller defined.  The grammar engine is
    external; on the arguments after the program name it either accepts,
    with the attributes of the namespace, or rejects with a message. *)
Inductive parse_outcome :=
| Accept (ns : Namespace)
| Reject (message : string).

Record ArgumentParser := {
  ap_prog : string;
  ap_grammar : list string -> parse_outcome
}.

(** [CustomArgParser]: the base object and the two fields [__init__]
    adds. *)
Record CustomArgParser := {
  base : ArgumentParser;
  _version : pyval;
  _url : pyval
}.

Definition prog (self : CustomArgParser) : string := ap_prog (base self).

(** [CustomArgParser.__init__]: [ver] and [url] are popped from the keyword
    arguments when present, and the rest goes to the base class, whose
    initialiser is [super_init]. *)
Definition __init__ (super_init : gmap string pyval -> ArgumentParser)
    (kwargs : gmap string pyval) : CustomArgParser :=
  let '(version, kwargs) :=
    match kwargs !! "ver" with
    | Some v => (v, delete "ver" kwargs)
    | None => (PNone, kwargs)
    end in
  let '(url, kwargs) :=
    match kwargs !! "url" with
    | Some v => (v, delete "url" kwargs)
    | None => (PNone, kwargs)
    end in
  {| base := super_init kwargs; _version := version; _url := url |}.

(** The flags of the version query, and [a in {...}]. *)
Definition version_flags : gset string :=
  {[ "-v"; "--v"; "-version"; "--version" ]}.

Definition is_version_flag (a : string) : bool :=
  bool_decide (a ∈ version_flags).

Section Parser.

(** [corejam.logging.colour text fg]: the terminal colouring, a function of
    the text and the colour name. *)
Variable colour : string -> string -> string.

(** [traceback.format_exc()] while the exception is being handled. *)
Variable format_exc : exn -> string.

(** The banner text [<prog> v<version>]. *)
Definition banner (self : CustomArgParser) : string :=
  prog self +:+ " v" +:+ py_str (_version self).

Definition print_usage (self : CustomArgParser) (file : option stream)
    : M unit :=
  let file := match file with None => Stdout | Some f => f end in
  let lines := [ "  " +:+ colour (banner self) "blue";
                 "  " +:+ py_str (_url self);
                 "" ] in
  write file (join nl lines).

(** [exit(status, message)]: the message is written only when it is
    truthy, that is a non-empty string. *)
Definition exit {A} (status : Z) (message : option string) : M A :=
  (match message with
   | Some (String _ _ as m) => write Stderr (colour m "red" +:+ nl)
   | _ => ret tt
   end) ;;;
  sys_exit status.

Definition error {A} (self : CustomArgParser) (message : string) : M A :=
  print_usage self (Some Stderr) ;;;
  exit 2 (Some ("[" +:+ prog self +:+ "] Error: " +:+ message +:+ nl)).

Definition print_version (self : CustomArgParser) : M unit :=
  write Stdout (colour (banner self) "blue" +:+ nl).

(** [parse_args()] of the base class: the grammar runs on [sys.argv[1:]];
    an accepted command line gives a new [Namespace] object, a rejected
    one goes to [self.error]. *)
Definition parse_args (self : CustomArgParser) : M nat :=
  note_parse ;;;
  argv <- get_argv ;;
  match ap_grammar (base self) (drop 1 argv) with
  | Accept ns => alloc ns
  | Reject message => error self message
  end.

(** ** The run guard *)

(** The text [msg] that the clauses for [JAMException] and for [Exception]
    build, by the same seven statements in both, for the warnings
    channel. *)
Definition warning_block (e : exn) (name message : string) : string :=
  let msg :=
    "Controlled exit resulting from an unrecoverable error or warning."
      +:+ nl +:+ nl in
  let msg := msg +:+ (str_mul "=" 80 +:+ nl) in
  let msg := msg +:+ ("EXCEPTION: " +:+ name +:+ nl) in
  let msg := msg +:+ ("  MESSAGE: " +:+ message +:+ nl) in
  let msg := msg +:+ (str_mul "_" 80 +:+ nl +:+ nl) in
  let msg := msg +:+ format_exc e in
  let msg := msg +:+ str_mul "=" 80 in
  msg.

(** [if len(str(e)) > 0: log.error('{}'.format(e))]. *)
Definition log_message (msg : string) : M unit :=
  if 0 <? String.length msg then log_error msg else ret tt.

(** The [except] clauses of [jam_parser], in the order of the source; an
    exception no clause matches is raised again. *)
Definition jam_handlers (e : exn) : M unit :=
  match e with
  | Raised KeyboardInterrupt _ _ =>
      log_error "Controlled exit resulting from keyboard interrupt." ;;;
      sys_exit 1
  | Raised JAMException name msg =>
      log_message msg ;;;
      log_error "Controlled exit resulting from an unrecoverable error or warning (see warnings.log)." ;;;
      warn_info (warning_block e name msg) ;;;
      sys_exit 1
  | Raised Exception name msg =>
      log_message msg ;;;
      log_error "Uncontrolled exit resulting from an unexpected error (see warnings.log)." ;;;
      warn_info (warning_block e name msg) ;;;
      sys_exit 1
  | _ => raise e
  end.

(** The body of the [try] statement.  [contextlib.contextmanager] runs the
    generator up to its [yield], runs the block of the [with] statement
    on the yielded object, and throws an exception of the block into the
    generator at the [yield]; so the block runs where the [yield]
    stands. *)
Definition jam_body (parser : CustomArgParser) (title version : string)
    (block : nat -> M unit) : M unit :=
  argv <- get_argv ;;
  if length argv =? 1 then
    print_usage parser None ;;;
    sys_exit 1
  else
    match argv !! 1 with
    | None => raise (Raised Exception "IndexError" "list index out of range")
    | Some first =>
        if is_version_flag first then
          print_version parser ;;;
          sys_exit 0
        else
          args <- parse_args parser ;;
          out_dir <- getattr args "out_dir" ;;
          debug <- getattr args "debug" ;;
          logger_setup (default PNone out_dir) (title +:+ ".log") title
            version false (default (PBool false) debug) ;;;
          yielded <- parse_args parser ;;
          block yielded
    end.

Definition jam_parser (parser : CustomArgParser) (title version : string)
    (block : nat -> M unit) : M unit :=
  try_except (jam_body parser title version block) jam_handlers.

(** ** Texts and states the properties speak about *)

(** The usage banner as one text: the coloured line, the URL line and the
    empty last line, each of the first two ended by a newline. *)
Definition usage_text (self : CustomArgParser) : string :=
  "  " +:+ colour (banner self) "blue" +:+ nl
  +:+ "  " +:+ py_str (_url self) +:+ nl.

(** The separator lines, written out. *)
Definition line_of_equals : string :=
  "================================================================================".

Definition line_of_underscores : string :=
  "________________________________________________________________________________".

(** The structured block as the specification lists it: the fixed header,
    a line of [=], the type name, the message, a line of [_], the stack
    trace and a closing line of [=]. *)
Definition structured_block (name message trace : string) : string :=
  "Controlled exit resulting from an unrecoverable error or warning."
  +:+ nl +:+ nl
  +:+ line_of_equals +:+ nl
  +:+ "EXCEPTION: " +:+ name +:+ nl
  +:+ "  MESSAGE: " +:+ message +:+ nl
  +:+ line_of_underscores +:+ nl +:+ nl
  +:+ trace
  +:+ line_of_equals.

(** The structured block without its header: from the first line of [=]
    to the closing one. *)
Definition block_body (name message trace : string) : string :=
  line_of_equals +:+ nl
  +:+ "EXCEPTION: " +:+ name +:+ nl
  +:+ "  MESSAGE: " +:+ message +:+ nl
  +:+ line_of_underscores +:+ nl +:+ nl
  +:+ trace
  +:+ line_of_equals.

(** The default channel after [log_message]: one more record, unless the
    message is empty. *)
Definition message_logged (msg : string) (w : world) : world :=
  match msg with
  | EmptyString => w
  | String _ _ => put_default ERROR msg w
  end.

(** The arguments [jam_parser] gives to [logger_setup] for a namespace. *)
Definition setup_of (title version : string) (ns : Namespace) : setup_call :=
  {| sc_out_dir := default PNone (ns !! "out_dir");
     sc_filename := title +:+ ".log";
     sc_title := title;
     sc_version := version;
     sc_flag := false;
     sc_debug := default (PBool false) (ns !! "debug") |}.

(** The state in which the block of the [with] statement starts, when the
    grammar accepts with [ns]. *)
Definition at_yield (title version : string) (ns : Namespace) (w : world)
    : world :=
  new_namespace ns
    (count_parse
       (record_setup (setup_of title version ns)
          (new_namespace ns (count_parse w)))).

End Parser.

(** ** The help text *)

Section Help.

(** [str.upper], the built-in. *)
Variable upper : string -> string.

(** [format_help()] of the base class: the help text of the parser, the
    same at both calls. *)
Variable format_help : CustomArgParser -> string.

(** [print_help]: [format_help()[0]] is taken first, which raises
    [IndexError] on an empty help text, before anything is written. *)
Definition print_help (self : CustomArgParser) (file : option stream)
    : M unit :=
  let file := match file with None => Stdout | Some f => f end in
  match format_help self with
  | EmptyString =>
      raise (Raised Exception "IndexError" "string index out of range")
  | String c rest => write file (upper (String c "") +:+ rest +:+ nl)
  end.

End Help.

(** ** The run guard over any logging collaborator *)

Section AnyLogging.

Variable colour : string -> string -> string.
Variable format_exc : exn -> string.

(** [logger_setup] as a collaborator of which nothing is assumed: it may
    log, print, change the state and raise. *)
Variable setup : pyval -> string -> string -> string -> bool -> pyval -> M unit.

(** The body of the [try] statement and the guard, as [jam_body] and
    [jam_parser] are, with [setup] called where the source calls
    [logger_setup]. *)
Definition jam_body_with (parser : CustomArgParser) (title version : string)
    (block : nat -> M unit) : M unit :=
  argv <- get_argv ;;
  if length argv =? 1 then
    print_usage colour parser None ;;;
    sys_exit 1
  else
    match argv !! 1 with
    | None => raise (Raised Exception "IndexError" "list index out of range")
    | Some first =>
        if is_version_flag first then
          print_version colour parser ;;;
          sys_exit 0
        else
          args <- parse_args colour parser ;;
          out_dir <- getattr args "out_dir" ;;
          debug <- getattr args "debug" ;;
          setup (default PNone out_dir) (title +:+ ".log") title
            version false (default (PBool false) debug) ;;;
          yielded <- parse_args colour parser ;;
          block yielded
    end.

Definition jam_parser_with (parser : CustomArgParser)
    (title version : string) (block : nat -> M unit) : M unit :=
  try_except (jam_body_with parser title version block)
    (jam_handlers format_exc).

End AnyLogging.

(** ** Sample invocations *)

(** A terminal without colours: the text comes back as it is. *)
Definition plain (text fg : string) : string := text.

(** A traceback that consists of its first line. *)
Definition short_trace (e : exn) : string :=
  "Traceback (most recent call last):" +:+ nl.

(** The namespace of the command line [demo run]. *)
Definition run_namespace : Namespace := {[ "out_dir" := PStr "out" ]}.

(** The grammar of the sample parser: the one command [run], with an
    output directory. *)
Definition demo_grammar (args : list string) : parse_outcome :=
  match args with
  | [ "run" ] => Accept run_namespace
  | _ => Reject "invalid choice"
  end.

(** The base initialiser of the samples: the program name is the keyword
    argument [prog], and [demo] without it. *)
Definition demo_super_init (kwargs : gmap string pyval) : ArgumentParser :=
  {| ap_prog := match kwargs !! "prog" with
                | Some (PStr name) => name
                | _ => "demo"
                end;
     ap_grammar := demo_grammar |}.

(** [CustomArgParser(prog='demo', ver='1.2.3', url='https://demo.example')]. *)
Definition demo : CustomArgParser :=
  __init__ demo_super_init
    (<[ "prog" := PStr "demo" ]>
       (<[ "ver" := PStr "1.2.3" ]>
          (<[ "url" := PStr "https://demo.example" ]> ∅))).

(** [CustomArgParser(prog='demo')]. *)
Definition bare : CustomArgParser :=
  __init__ demo_super_init (<[ "prog" := PStr "demo" ]> ∅).

(** [setattr(args, name, v)], for a block that changes the namespace it
    was given. *)
Definition setattr (r : nat) (name : string) (v : pyval) : M unit :=
  fun w =>
    (Return tt,
     {| w_argv := w_argv w; w_stdout := w_stdout w; w_stderr := w_stderr w;
        w_default := w_default w; w_warnings := w_warnings w;
        w_heap := alter (fun ns : Namespace => <[ name := v ]> ns) r (w_heap w);
        w_setup := w_setup w; w_parses := w_parses w |}).

(** Blocks of the [with] statement: one that raises
    [JAMException("bad config")], one that divides by zero, one that raises
    [Exception()], one that calls [sys.exit(code)], and one that sets an
    attribute of the namespace it was given. *)
Definition bad_config (args : nat) : M unit :=
  raise (Raised JAMException "JAMException" "bad config").

Definition divide_by_zero (args : nat) : M unit :=
  raise (Raised Exception "ZeroDivisionError" "division by zero").

Definition silent_failure (args : nat) : M unit :=
  raise (Raised Exception "Exception" "").

Definition leave_with (code : Z) (args : nat) : M unit :=
  sys_exit code.

Definition mark_seen (args : nat) : M unit :=
  setattr args "seen" (PBool true).

(** [str.upper] on text of ASCII letters: [a] to [z] go to [A] to [Z]. *)
Definition upper_letter (c : ascii) : ascii :=
  if (97 <=? nat_of_ascii c) && (nat_of_ascii c <=? 122)
  then ascii_of_nat (nat_of_ascii c - 32)
  else c.

Fixpoint ascii_upper (s : string) : string :=
  match s with
  | EmptyString => EmptyString
  | String c rest => String (upper_letter c) (ascii_upper rest)
  end.

(** Two help texts: a usage line, and the empty text of a parser with
    its usage suppressed and no arguments. *)
Definition usage_help (self : CustomArgParser) : string :=
  "usage: " +:+ prog self +:+ " [-h] {run}" +:+ nl.

Definition no_help (self : CustomArgParser) : string := "".

(** A logging set-up that cannot make its output directory. *)
Definition failing_setup (out_dir : pyval) (filename title version : string)
    (flag : bool) (debug : pyval) : M unit :=
  raise (Raised Exception "PermissionError" "cannot create the directory").

(** A block that is interrupted from the keyboard. *)
Definition interrupted (args : nat) : M unit :=
  raise (Raised KeyboardInterrupt "KeyboardInterrupt" "").

(** A fresh process with the given [sys.argv]. *)
Definition initial (argv : list string) : world :=
  {| w_argv := argv; w_stdout := []; w_stderr := []; w_default := [];
     w_warnings := []; w_heap := []; w_setup := []; w_parses := 0 |}.

(** ** Properties of the custom parser *)

Section ParserProperties.

Variable colour : string -> string -> string.

(** C8: [print_usage] makes one write, of the three lines joined by
    newlines (the coloured [<prog> v<version>] line, the URL line and an
    empty line), to the given stream, to standard output when none is
    given, and returns nothing. *)
Theorem print_usage_banner (self : CustomArgParser) (file : option stream)
    (w : world) :
  print_usage colour self file w
  = (Return tt,
     put (default Stdout file)
       (join nl [ "  " +:+ colour (prog self +:+ " v" +:+ py_str (_version self)) "blue";
                  "  " +:+ py_str (_url self);
                  "" ]) w)
  /\ print_usage colour self None w = print_usage colour self (Some Stdout) w
  /\ join nl [ "  " +:+ colour (prog self +:+ " v" +:+ py_str (_version self)) "blue";
               "  " +:+ py_str (_url self);
               "" ]
     = "  " +:+ colour (prog self +:+ " v" +:+ py_str (_version self)) "blue"
       +:+ nl +:+ "  " +:+ py_str (_url self) +:+ nl.
Proof.
  split; [|split].
  - destruct file; reflexivity.
  - reflexivity.
  - reflexivity.
Qed.

Lemma print_usage_run (self : CustomArgParser) (file : option stream)
    (w : world) :
  print_usage colour self file w
  = (Return tt, put (default Stdout file) (usage_text colour self) w).
Proof.
  now destruct file.
Qed.

Lemma print_version_run (self : CustomArgParser) (w : world) :
  print_version colour self w
  = (Return tt, put Stdout (colour (banner self) "blue" +:+ nl) w).
Proof. reflexivity. Qed.

(** C9: for the program [demo] at version [1.2.3], [print_version] writes
    the one line [demo v1.2.3], coloured, to standard output; a second
    call writes the same line again and changes nothing else. *)
Theorem print_version_demo (self : CustomArgParser) (w : world) :
  prog self = "demo" ->
  _version self = PStr "1.2.3" ->
  print_version colour self w
  = (Return tt, put Stdout (colour "demo v1.2.3" "blue" +:+ nl) w)
  /\ (print_version colour self ;;; print_version colour self) w
     = (Return tt,
        put Stdout (colour "demo v1.2.3" "blue" +:+ nl)
          (put Stdout (colour "demo v1.2.3" "blue" +:+ nl) w)).
Proof.
  intros Hprog Hver.
  unfold bind. rewrite !print_version_run. unfold banner.
  rewrite Hprog, Hver. split; reflexivity.
Qed.

(** C10: a parser made without the keyword [ver] stores [None] as its
    version, and [print_version] and [print_usage] then succeed with the
    text [None] in the place of the version; likewise without [url] the
    stored URL is [None] and the URL line of the usage banner reads
    [None]. *)
Theorem init_defaults_render_None
    (super_init : gmap string pyval -> ArgumentParser)
    (kwargs : gmap string pyval) (file : option stream) (w : world) :
  (kwargs !! "ver" = None ->
   _version (__init__ super_init kwargs) = PNone
   /\ print_version colour (__init__ super_init kwargs) w
      = (Return tt,
         put Stdout
           (colour (prog (__init__ super_init kwargs) +:+ " vNone") "blue"
              +:+ nl) w)
   /\ print_usage colour (__init__ super_init kwargs) file w
      = (Return tt,
         put (default Stdout file)
           ("  " +:+ colour (prog (__init__ super_init kwargs) +:+ " vNone") "blue"
              +:+ nl
              +:+ "  " +:+ py_str (_url (__init__ super_init kwargs)) +:+ nl)
           w))
  /\ (kwargs !! "url" = None ->
      _url (__init__ super_init kwargs) = PNone
      /\ print_usage colour (__init__ super_init kwargs) file w
         = (Return tt,
            put (default Stdout file)
              ("  " +:+ colour (banner (__init__ super_init kwargs)) "blue"
                 +:+ nl +:+ "  None" +:+ nl)
              w)).
Proof.
  split; intros Habsent.
  - assert (Hver : _version (__init__ super_init kwargs) = PNone).
    { unfold __init__. rewrite Habsent.
      now destruct (kwargs !! "url"). }
    rewrite print_version_run, print_usage_run.
    unfold usage_text, banner. rewrite Hver. now repeat split.
  - assert (Hurl : _url (__init__ super_init kwargs) = PNone).
    { unfold __init__.
      destruct (kwargs !! "ver") eqn:Hv.
      - rewrite lookup_delete_ne by discriminate. now rewrite Habsent.
      - now rewrite Habsent. }
    rewrite print_usage_run. unfold usage_text. rewrite Hurl. now split.
Qed.

End ParserProperties.

(** ** Properties of the run guard *)

Section GuardProperties.

Variable colour : string -> string -> string.
Variable format_exc : exn -> string.

Lemma second_argument (argv : list string) (first : string) :
  argv !! 1 = Some first -> (length argv =? 1) = false.
Proof. now destruct argv as [|a [|b argv]]. Qed.

(** What [self.error] does, whatever the expected result type. *)
Lemma error_run {A} (self : CustomArgParser) (message : string) (w : world) :
  error (A := A) colour self message w
  = (Raise (SystemExit 2),
     put Stderr
       (colour ("[" +:+ prog self +:+ "] Error: " +:+ message +:+ nl) "red"
          +:+ nl)
       (put Stderr (usage_text colour self) w)).
Proof. reflexivity. Qed.

Lemma parse_args_rejected (self : CustomArgParser) (message : string)
    (w : world) :
  ap_grammar (base self) (drop 1 (w_argv w)) = Reject message ->
  parse_args colour self w = error colour self message (count_parse w).
Proof.
  intros Hrej. unfold parse_args, bind, note_parse, get_argv. simpl.
  now rewrite Hrej.
Qed.

Lemma parse_args_accepted (self : CustomArgParser) (ns : Namespace)
    (w : world) :
  ap_grammar (base self) (drop 1 (w_argv w)) = Accept ns ->
  parse_args colour self w
  = (Return (length (w_heap w)), new_namespace ns (count_parse w)).
Proof.
  intros Hacc. unfold parse_args, bind, note_parse, get_argv. simpl.
  now rewrite Hacc.
Qed.

(** The three ways through the [try] body. *)
Lemma jam_body_no_arguments (parser : CustomArgParser)
    (title version : string) (block : nat -> M unit) (w : world) :
  length (w_argv w) = 1 ->
  jam_body colour parser title version block w
  = (Raise (SystemExit 1), put Stdout (usage_text colour parser) w).
Proof.
  intros Hlen. unfold jam_body, bind, get_argv. now rewrite Hlen.
Qed.

Lemma jam_body_version (parser : CustomArgParser) (title version : string)
    (block : nat -> M unit) (w : world) (first : string) :
  w_argv w !! 1 = Some first ->
  is_version_flag first = true ->
  jam_body colour parser title version block w
  = (Raise (SystemExit 0),
     put Stdout (colour (banner parser) "blue" +:+ nl) w).
Proof.
  intros Hfirst Hflag. unfold jam_body, bind, get_argv.
  now rewrite (second_argument _ _ Hfirst), Hfirst, Hflag.
Qed.

Lemma jam_body_rejected (parser : CustomArgParser) (title version : string)
    (block : nat -> M unit) (w : world) (first message : string) :
  w_argv w !! 1 = Some first ->
  is_version_flag first = false ->
  ap_grammar (base parser) (drop 1 (w_argv w)) = Reject message ->
  jam_body colour parser title version block w
  = error colour parser message (count_parse w).
Proof.
  intros Hfirst Hflag Hrej. unfold jam_body, bind at 1, get_argv.
  rewrite (second_argument _ _ Hfirst), Hfirst, Hflag.
  unfold bind at 1. now rewrite (parse_args_rejected _ _ _ Hrej).
Qed.

Lemma jam_body_accepted (parser : CustomArgParser) (title version : string)
    (block : nat -> M unit) (w : world) (first : string) (ns : Namespace) :
  w_argv w !! 1 = Some first ->
  is_version_flag first = false ->
  ap_grammar (base parser) (drop 1 (w_argv w)) = Accept ns ->
  jam_body colour parser title version block w
  = block (S (length (w_heap w))) (at_yield title version ns w).
Proof.
  intros Hfirst Hflag Hacc. unfold jam_body, bind at 1, get_argv.
  rewrite (second_argument _ _ Hfirst), Hfirst, Hflag.
  unfold bind at 1. rewrite (parse_args_accepted _ _ _ Hacc).
  unfold bind at 1, getattr at 1. cbn [w_heap new_namespace count_parse].
  rewrite list_lookup_middle by reflexivity. cbn [mbind option_bind].
  unfold bind at 1, getattr at 1. cbn [w_heap new_namespace count_parse].
  rewrite list_lookup_middle by reflexivity. cbn [mbind option_bind].
  unfold bind at 1, logger_setup at 1.
  unfold bind at 1. rewrite parse_args_accepted with (ns := ns) by exact Hacc.
  cbn [w_heap record_setup new_namespace count_parse].
  rewrite length_app. cbn [length]. rewrite Nat.add_1_r.
  reflexivity.
Qed.

(** The guard runs the handlers on what the body raises, and returns when
    the body does. *)
Lemma jam_parser_raise (parser : CustomArgParser) (title version : string)
    (block : nat -> M unit) (w w1 : world) (e : exn) :
  jam_body colour parser title version block w = (Raise e, w1) ->
  jam_parser colour format_exc parser title version block w
  = jam_handlers format_exc e w1.
Proof. intros Hbody. unfold jam_parser, try_except. now rewrite Hbody. Qed.

Lemma jam_parser_return (parser : CustomArgParser) (title version : string)
    (block : nat -> M unit) (w w1 : world) :
  jam_body colour parser title version block w = (Return tt, w1) ->
  jam_parser colour format_exc parser title version block w
  = (Return tt, w1).
Proof. intros Hbody. unfold jam_parser, try_except. now rewrite Hbody. Qed.

Lemma append_assoc (a b c : string) : (a +:+ b) +:+ c = a +:+ b +:+ c.
Proof.
  induction a as [|x a IH]; [reflexivity|].
  change (String x ((a +:+ b) +:+ c) = String x (a +:+ b +:+ c)).
  now f_equal.
Qed.

Lemma separator_lengths :
  String.length line_of_equals = 80
  /\ String.length line_of_underscores = 80
  /\ str_mul "=" 80 = line_of_equals
  /\ str_mul "_" 80 = line_of_underscores.
Proof. now repeat split. Qed.

(** The text the handlers build is the structured block. *)
Lemma warning_block_structured (e : exn) (name message : string) :
  warning_block format_exc e name message
  = structured_block name message (format_exc e).
Proof.
  unfold warning_block, structured_block. cbv zeta.
  destruct separator_lengths as (_ & _ & -> & ->).
  now rewrite !append_assoc.
Qed.

Lemma log_message_run (msg : string) (w : world) :
  log_message msg w = (Return tt, message_logged msg w).
Proof. now destruct msg. Qed.

Lemma handle_domain (name msg : string) (w : world) :
  jam_handlers format_exc (Raised JAMException name msg) w
  = (Raise (SystemExit 1),
     put_warnings INFO
       (structured_block name msg
          (format_exc (Raised JAMException name msg)))
       (put_default ERROR
          "Controlled exit resulting from an unrecoverable error or warning (see warnings.log)."
          (message_logged msg w))).
Proof.
  unfold jam_handlers, bind.
  now rewrite log_message_run, warning_block_structured.
Qed.

Lemma handle_unexpected (name msg : string) (w : world) :
  jam_handlers format_exc (Raised Exception name msg) w
  = (Raise (SystemExit 1),
     put_warnings INFO
       (structured_block name msg (format_exc (Raised Exception name msg)))
       (put_default ERROR
          "Uncontrolled exit resulting from an unexpected error (see warnings.log)."
          (message_logged msg w))).
Proof.
  unfold jam_handlers, bind.
  now rewrite log_message_run, warning_block_structured.
Qed.

Lemma handle_interrupt (name msg : string) (w : world) :
  jam_handlers format_exc (Raised KeyboardInterrupt name msg) w
  = (Raise (SystemExit 1),
     put_default ERROR "Controlled exit resulting from keyboard interrupt." w).
Proof. reflexivity. Qed.

(** C2: with no command-line argument ([sys.argv] holds the program name
    only) the usage banner goes to standard output and the guard leaves
    with [SystemExit(1)]; [parse_args] is not called and no namespace is
    made. *)
Theorem jam_parser_no_arguments (parser : CustomArgParser)
    (title version : string) (block : nat -> M unit) (w : world) :
  length (w_argv w) = 1 ->
  jam_parser colour format_exc parser title version block w
  = (Raise (SystemExit 1), put Stdout (usage_text colour parser) w)
  /\ w_parses (snd (jam_parser colour format_exc parser title version block w))
     = w_parses w
  /\ w_heap (snd (jam_parser colour format_exc parser title version block w))
     = w_heap w.
Proof.
  intros Hlen.
  rewrite (jam_parser_raise _ _ _ _ _ _ _
             (jam_body_no_arguments parser title version block w Hlen)).
  now repeat split.
Qed.

(** C3: when the first argument is one of [-v], [--v], [-version],
    [--version], whatever follows it, the version banner goes to standard
    output and the guard leaves with [SystemExit(0)]; [parse_args] is not
    called. *)
Theorem jam_parser_version_flag (parser : CustomArgParser)
    (title version : string) (block : nat -> M unit) (w : world)
    (first : string) :
  w_argv w !! 1 = Some first ->
  first ∈ ({[ "-v"; "--v"; "-version"; "--version" ]} : gset string) ->
  jam_parser colour format_exc parser title version block w
  = (Raise (SystemExit 0),
     put Stdout
       (colour (prog parser +:+ " v" +:+ py_str (_version parser)) "blue"
          +:+ nl) w)
  /\ w_parses (snd (jam_parser colour format_exc parser title version block w))
     = w_parses w.
Proof.
  intros Hfirst Hflag.
  assert (Hb : is_version_flag first = true).
  { unfold is_version_flag. now apply bool_decide_eq_true. }
  rewrite (jam_parser_raise _ _ _ _ _ _ _
             (jam_body_version parser title version block w first Hfirst Hb)).
  now split.
Qed.

(** C6: [error(message)] writes the usage banner to standard error, then
    the text [[<prog>] Error: <message>], coloured red, to standard error,
    and leaves through [exit] with [SystemExit(2)]; this is what
    [parse_args] does on a command line the grammar rejects. *)
Theorem error_exits_with_2 (self : CustomArgParser) (message : string)
    (w : world) :
  error (A := unit) colour self message w
  = (Raise (SystemExit 2),
     put Stderr
       (colour ("[" +:+ prog self +:+ "] Error: " +:+ message +:+ nl) "red"
          +:+ nl)
       (put Stderr (usage_text colour self) w))
  /\ error (A := unit) colour self message w
     = (print_usage colour self (Some Stderr) ;;;
        exit colour 2
          (Some ("[" +:+ prog self +:+ "] Error: " +:+ message +:+ nl))) w
  /\ (ap_grammar (base self) (drop 1 (w_argv w)) = Reject message ->
      parse_args colour self w
      = (Raise (SystemExit 2),
         put Stderr
           (colour ("[" +:+ prog self +:+ "] Error: " +:+ message +:+ nl)
              "red" +:+ nl)
           (put Stderr (usage_text colour self) (count_parse w)))).
Proof.
  split; [|split].
  - apply error_run.
  - reflexivity.
  - intros Hrej. now rewrite (parse_args_rejected _ _ _ Hrej), error_run.
Qed.

(** C4: a [JAMException] raised by the block: the default channel gets
    the message of the exception, when it is not empty, and then the
    controlled-exit line; the warnings channel gets one record, the
    structured block (header, 80 [=], type name, message, 80 [_], stack
    trace, 80 [=]); the guard leaves with [SystemExit(1)]. *)
Theorem domain_exception_logged (parser : CustomArgParser)
    (title version : string) (block : nat -> M unit) (w w1 : world)
    (first : string) (ns : Namespace) (name msg : string) :
  w_argv w !! 1 = Some first ->
  is_version_flag first = false ->
  ap_grammar (base parser) (drop 1 (w_argv w)) = Accept ns ->
  block (S (length (w_heap w))) (at_yield title version ns w)
  = (Raise (Raised JAMException name msg), w1) ->
  jam_parser colour format_exc parser title version block w
  = (Raise (SystemExit 1),
     put_warnings INFO
       (structured_block name msg
          (format_exc (Raised JAMException name msg)))
       (put_default ERROR
          "Controlled exit resulting from an unrecoverable error or warning (see warnings.log)."
          (match msg with
           | EmptyString => w1
           | String _ _ => put_default ERROR msg w1
           end))).
Proof.
  intros Hfirst Hflag Hacc Hblock.
  rewrite (jam_parser_raise _ _ _ _ _ w1 (Raised JAMException name msg)).
  - apply handle_domain.
  - now rewrite (jam_body_accepted _ _ _ _ _ _ _ Hfirst Hflag Hacc).
Qed.

(** C5, as amended: an exception of the block that derives from
    [Exception] and is not a [JAMException]: the warnings channel gets one
    record, which after its header is the block with the separators, the
    type name, the message and the stack trace that the block for a
    [JAMException] has after its header; the default channel gets the
    message of the exception, when it is not empty, and then the
    uncontrolled-exit line; the guard leaves with [SystemExit(1)]. *)
Theorem unexpected_exception_logged (parser : CustomArgParser)
    (title version : string) (block : nat -> M unit) (w w1 : world)
    (first : string) (ns : Namespace) (name msg : string) :
  w_argv w !! 1 = Some first ->
  is_version_flag first = false ->
  ap_grammar (base parser) (drop 1 (w_argv w)) = Accept ns ->
  block (S (length (w_heap w))) (at_yield title version ns w)
  = (Raise (Raised Exception name msg), w1) ->
  (exists header,
      jam_parser colour format_exc parser title version block w
      = (Raise (SystemExit 1),
         put_warnings INFO
           (header
              +:+ block_body name msg
                    (format_exc (Raised Exception name msg)))
           (put_default ERROR
              "Uncontrolled exit resulting from an unexpected error (see warnings.log)."
              (match msg with
               | EmptyString => w1
               | String _ _ => put_default ERROR msg w1
               end))))
  /\ (forall trace,
        structured_block name msg trace
        = "Controlled exit resulting from an unrecoverable error or warning."
          +:+ nl +:+ nl +:+ block_body name msg trace).
Proof.
  intros Hfirst Hflag Hacc Hblock. split; [|reflexivity].
  exists ("Controlled exit resulting from an unrecoverable error or warning."
          +:+ nl +:+ nl).
  rewrite (jam_parser_raise _ _ _ _ _ w1 (Raised Exception name msg)).
  - apply handle_unexpected.
  - now rewrite (jam_body_accepted _ _ _ _ _ _ _ Hfirst Hflag Hacc).
Qed.

(** C1, as amended: an exception of the block that is a
    [KeyboardInterrupt], a [JAMException] or derives from [Exception] is
    caught, and the guard leaves with [SystemExit(1)]; a [SystemExit] and
    any other exception that derives from [BaseException] only has no
    clause and leaves the guard as it was raised.  A version query leaves
    with [SystemExit(0)], a command line the grammar rejects with
    [SystemExit(2)], and a block that returns lets the guard return
    without any exit. *)
Theorem guard_exit_codes (parser : CustomArgParser) (title version : string)
    (block : nat -> M unit) (w : world) (first : string) :
  w_argv w !! 1 = Some first ->
  (is_version_flag first = true ->
   fst (jam_parser colour format_exc parser title version block w)
   = Raise (SystemExit 0))
  /\ (forall message,
        is_version_flag first = false ->
        ap_grammar (base parser) (drop 1 (w_argv w)) = Reject message ->
        fst (jam_parser colour format_exc parser title version block w)
        = Raise (SystemExit 2))
  /\ (forall ns e w1,
        is_version_flag first = false ->
        ap_grammar (base parser) (drop 1 (w_argv w)) = Accept ns ->
        block (S (length (w_heap w))) (at_yield title version ns w)
        = (Raise e, w1) ->
        match e with
        | Raised KeyboardInterrupt _ _
        | Raised JAMException _ _
        | Raised Exception _ _ =>
            fst (jam_parser colour format_exc parser title version block w)
            = Raise (SystemExit 1)
        | SystemExit _
        | Raised BaseException _ _ =>
            jam_parser colour format_exc parser title version block w
            = (Raise e, w1)
        end)
  /\ (forall ns w1,
        is_version_flag first = false ->
        ap_grammar (base parser) (drop 1 (w_argv w)) = Accept ns ->
        block (S (length (w_heap w))) (at_yield title version ns w)
        = (Return tt, w1) ->
        jam_parser colour format_exc parser title version block w
        = (Return tt, w1)).
Proof.
  intros Hfirst. split; [|split; [|split]].
  - intros Hflag.
    now rewrite (jam_parser_raise _ _ _ _ _ _ _
                   (jam_body_version parser title version block w first
                      Hfirst Hflag)).
  - intros message Hflag Hrej.
    rewrite (jam_parser_raise _ _ _ _ _
               (put Stderr
                  (colour ("[" +:+ prog parser +:+ "] Error: " +:+ message
                             +:+ nl) "red" +:+ nl)
                  (put Stderr (usage_text colour parser) (count_parse w)))
               (SystemExit 2)); [reflexivity|].
    now rewrite (jam_body_rejected _ _ _ _ _ _ _ Hfirst Hflag Hrej), error_run.
  - intros ns e w1 Hflag Hacc Hblock.
    assert (Hbody : jam_body colour parser title version block w
                    = (Raise e, w1)).
    { now rewrite (jam_body_accepted _ _ _ _ _ _ _ Hfirst Hflag Hacc). }
    rewrite (jam_parser_raise _ _ _ _ _ _ _ Hbody).
    destruct e as [code | [] name msg]; try reflexivity.
    + now rewrite handle_domain.
    + now rewrite handle_unexpected.
  - intros ns w1 Hflag Hacc Hblock.
    apply jam_parser_return.
    now rewrite (jam_body_accepted _ _ _ _ _ _ _ Hfirst Hflag Hacc).
Qed.

End GuardProperties.

(** ** The properties on the sample invocations *)

Lemma jam_parser_no_arguments_demo :
  jam_parser plain short_trace demo "demo" "1.2.3" mark_seen
    (initial ["demo"])
  = (Raise (SystemExit 1),
     put Stdout
       ("  demo v1.2.3" +:+ nl +:+ "  https://demo.example" +:+ nl)
       (initial ["demo"])).
Proof.
  exact (proj1 (jam_parser_no_arguments plain short_trace demo "demo" "1.2.3"
                  mark_seen (initial ["demo"]) eq_refl)).
Defined.

Lemma jam_parser_version_flag_demo :
  jam_parser plain short_trace demo "demo" "1.2.3" mark_seen
    (initial ["demo"; "--version"; "fly"])
  = (Raise (SystemExit 0),
     put Stdout ("demo v1.2.3" +:+ nl)
       (initial ["demo"; "--version"; "fly"])).
Proof.
  refine (proj1 (jam_parser_version_flag plain short_trace demo "demo" "1.2.3"
                   mark_seen (initial ["demo"; "--version"; "fly"])
                   "--version" eq_refl _)).
  vm_compute. reflexivity.
Defined.

Lemma error_exits_with_2_demo :
  parse_args plain demo (initial ["demo"; "fly"])
  = (Raise (SystemExit 2),
     put Stderr ("[demo] Error: invalid choice" +:+ nl +:+ nl)
       (put Stderr
          ("  demo v1.2.3" +:+ nl +:+ "  https://demo.example" +:+ nl)
          (count_parse (initial ["demo"; "fly"])))).
Proof.
  exact (proj2 (proj2 (error_exits_with_2 plain demo "invalid choice"
                         (initial ["demo"; "fly"]))) eq_refl).
Defined.

Lemma domain_exception_logged_demo :
  jam_parser plain short_trace demo "demo" "1.2.3" bad_config
    (initial ["demo"; "run"])
  = (Raise (SystemExit 1),
     put_warnings INFO
       (structured_block "JAMException" "bad config"
          ("Traceback (most recent call last):" +:+ nl))
       (put_default ERROR
          "Controlled exit resulting from an unrecoverable error or warning (see warnings.log)."
          (put_default ERROR "bad config"
             (at_yield "demo" "1.2.3" run_namespace
                (initial ["demo"; "run"]))))).
Proof.
  exact (domain_exception_logged plain short_trace demo "demo" "1.2.3"
           bad_config (initial ["demo"; "run"])
           (at_yield "demo" "1.2.3" run_namespace (initial ["demo"; "run"]))
           "run" run_namespace "JAMException" "bad config"
           eq_refl eq_refl eq_refl eq_refl).
Defined.

Lemma unexpected_exception_logged_demo :
  exists header,
    jam_parser plain short_trace demo "demo" "1.2.3" divide_by_zero
      (initial ["demo"; "run"])
    = (Raise (SystemExit 1),
       put_warnings INFO
         (header
            +:+ block_body "ZeroDivisionError" "division by zero"
                  ("Traceback (most recent call last):" +:+ nl))
         (put_default ERROR
            "Uncontrolled exit resulting from an unexpected error (see warnings.log)."
            (put_default ERROR "division by zero"
               (at_yield "demo" "1.2.3" run_namespace
                  (initial ["demo"; "run"]))))).
Proof.
  exact (proj1
           (unexpected_exception_logged plain short_trace demo "demo" "1.2.3"
              divide_by_zero (initial ["demo"; "run"])
              (at_yield "demo" "1.2.3" run_namespace
                 (initial ["demo"; "run"]))
              "run" run_namespace "ZeroDivisionError" "division by zero"
              eq_refl eq_refl eq_refl eq_refl)).
Defined.

Lemma guard_exit_codes_demo :
  fst (jam_parser plain short_trace demo "demo" "1.2.3" bad_config
         (initial ["demo"; "run"]))
  = Raise (SystemExit 1).
Proof.
  exact (proj1 (proj2 (proj2 (guard_exit_codes plain short_trace demo "demo"
                                "1.2.3" bad_config
                                (initial ["demo"; "run"]) "run" eq_refl)))
           run_namespace (Raised JAMException "JAMException" "bad config")
           (at_yield "demo" "1.2.3" run_namespace (initial ["demo"; "run"]))
           eq_refl eq_refl eq_refl).
Defined.

Lemma print_version_demo_twice :
  print_version plain demo (initial ["demo"])
  = (Return tt, put Stdout ("demo v1.2.3" +:+ nl) (initial ["demo"]))
  /\ (print_version plain demo ;;; print_version plain demo)
       (initial ["demo"])
     = (Return tt,
        put Stdout ("demo v1.2.3" +:+ nl)
          (put Stdout ("demo v1.2.3" +:+ nl) (initial ["demo"]))).
Proof.
  exact (print_version_demo plain demo (initial ["demo"]) eq_refl eq_refl).
Defined.

Lemma init_defaults_render_None_bare :
  _version bare = PNone
  /\ print_version plain bare (initial ["demo"])
     = (Return tt, put Stdout ("demo vNone" +:+ nl) (initial ["demo"]))
  /\ print_usage plain bare None (initial ["demo"])
     = (Return tt,
        put Stdout ("  demo vNone" +:+ nl +:+ "  None" +:+ nl)
          (initial ["demo"])).
Proof.
  exact (proj1 (init_defaults_render_None plain demo_super_init
                  (<[ "prog" := PStr "demo" ]> ∅) None (initial ["demo"]))
           eq_refl).
Defined.

(** C1, the claim as it stands fails: the block calls [sys.exit(3)]; no
    clause of the guard matches [SystemExit], it leaves the guard as it
    was raised, and the exit code is 3. *)
Lemma system_exit_passes_the_guard :
  jam_parser plain short_trace demo "demo" "1.2.3" (leave_with 3)
    (initial ["demo"; "run"])
  = (Raise (SystemExit 3),
     at_yield "demo" "1.2.3" run_namespace (initial ["demo"; "run"]))
  /\ fst (jam_parser plain short_trace demo "demo" "1.2.3" (leave_with 3)
            (initial ["demo"; "run"]))
     <> Raise (SystemExit 1).
Proof. split; [vm_compute; reflexivity | vm_compute; discriminate]. Qed.

(** C5, the claim as it stands fails: [SystemExit] is neither a domain
    exception nor an interrupt, and a block that calls [sys.exit(0)]
    leaves with code 0 and nothing on either channel; and for
    [Exception()], whose message is empty, the uncontrolled-exit line is
    the only line of the default channel, not the second. *)
Lemma not_every_other_exception_is_logged :
  (jam_parser plain short_trace demo "demo" "1.2.3" (leave_with 0)
     (initial ["demo"; "run"])
   = (Raise (SystemExit 0),
      at_yield "demo" "1.2.3" run_namespace (initial ["demo"; "run"]))
   /\ w_default (at_yield "demo" "1.2.3" run_namespace
                   (initial ["demo"; "run"])) = []
   /\ w_warnings (at_yield "demo" "1.2.3" run_namespace
                    (initial ["demo"; "run"])) = [])
  /\ w_default (snd (jam_parser plain short_trace demo "demo" "1.2.3"
                       silent_failure (initial ["demo"; "run"])))
     = [ (ERROR,
          "Uncontrolled exit resulting from an unexpected error (see warnings.log).") ].
Proof. repeat split; vm_compute; reflexivity. Qed.

(** C7, on the command line [demo run]: [parse_args] is called twice and
    two namespaces are made; [logger_setup] is fed from the first, the
    block is given the second (the attribute the block sets shows on the
    second object only). *)
Example parse_args_called_twice :
  fst (jam_parser plain short_trace demo "demo" "1.2.3" mark_seen
         (initial ["demo"; "run"]))
  = Return tt
  /\ w_parses (snd (jam_parser plain short_trace demo "demo" "1.2.3"
                      mark_seen (initial ["demo"; "run"])))
     = 2
  /\ w_heap (snd (jam_parser plain short_trace demo "demo" "1.2.3"
                    mark_seen (initial ["demo"; "run"])))
     = [ run_namespace; <[ "seen" := PBool true ]> run_namespace ]
  /\ w_setup (snd (jam_parser plain short_trace demo "demo" "1.2.3"
                     mark_seen (initial ["demo"; "run"])))
     = [ setup_of "demo" "1.2.3" run_namespace ].
Proof. repeat split; vm_compute; reflexivity. Qed.

(** ** Further properties of the custom parser *)

Section MoreParserProperties.

Variable colour : string -> string -> string.

(** What [__init__] stores and what it hands to the base class. *)
Lemma init_fields (super_init : gmap string pyval -> ArgumentParser)
    (kwargs : gmap string pyval) :
  __init__ super_init kwargs
  = {| base := super_init (delete "url" (delete "ver" kwargs));
       _version := default PNone (kwargs !! "ver");
       _url := default PNone (kwargs !! "url") |}.
Proof.
  unfold __init__.
  destruct (kwargs !! "ver") as [v|] eqn:Hver.
  - rewrite lookup_delete_ne by discriminate.
    destruct (kwargs !! "url") as [u|] eqn:Hurl; [reflexivity|].
    cbn. rewrite (delete_id (delete "ver" kwargs) "url"); [reflexivity|].
    now rewrite lookup_delete_ne by discriminate.
  - rewrite (delete_id kwargs "ver") by exact Hver.
    destruct (kwargs !! "url") as [u|] eqn:Hurl; [reflexivity|].
    cbn. now rewrite (delete_id kwargs "url") by exact Hurl.
Qed.

(** X1: [exit] never returns: it raises [SystemExit] with the given
    status for every status and message.  Without a message, and with
    the empty message, nothing is written; a non-empty message goes to
    standard error, coloured red and followed by a newline, and standard
    output is never written to. *)
Theorem exit_always_raises (status : Z) (message : option string)
    (w : world) :
  (exists w', exit (A := unit) colour status message w
              = (Raise (SystemExit status), w')
              /\ w_stdout w' = w_stdout w
              /\ w_default w' = w_default w
              /\ w_warnings w' = w_warnings w)
  /\ exit (A := unit) colour status None w = (Raise (SystemExit status), w)
  /\ exit (A := unit) colour status (Some "") w
     = (Raise (SystemExit status), w)
  /\ (forall c m,
        exit (A := unit) colour status (Some (String c m)) w
        = (Raise (SystemExit status),
           put Stderr (colour (String c m) "red" +:+ nl) w)).
Proof.
  split; [|now repeat split].
  destruct message as [[|c m]|].
  - now exists w.
  - now exists (put Stderr (colour (String c m) "red" +:+ nl) w).
  - now exists w.
Qed.

(** X2: [__init__] keeps [ver] and [url] for itself: the base class gets
    the keyword arguments without these two keys and with every other key
    as it was given; the stored version and URL are the values given, and
    [None] for a key that is absent. *)
Theorem init_strips_ver_and_url
    (super_init : gmap string pyval -> ArgumentParser)
    (kwargs : gmap string pyval) :
  base (__init__ super_init kwargs)
  = super_init (delete "url" (delete "ver" kwargs))
  /\ delete "url" (delete "ver" kwargs) !! "ver" = None
  /\ delete "url" (delete "ver" kwargs) !! "url" = None
  /\ (forall k : string,
        k <> "ver" -> k <> "url" ->
        delete "url" (delete "ver" kwargs) !! k = kwargs !! k)
  /\ _version (__init__ super_init kwargs) = default PNone (kwargs !! "ver")
  /\ _url (__init__ super_init kwargs) = default PNone (kwargs !! "url").
Proof.
  rewrite init_fields. cbn. repeat split.
  - rewrite lookup_delete_ne by discriminate. apply lookup_delete_eq.
  - apply lookup_delete_eq.
  - intros k Hver Hurl.
    rewrite lookup_delete_ne by congruence.
    now rewrite lookup_delete_ne by congruence.
Qed.

(** X3: giving [ver=None] is the same as leaving [ver] out, and likewise
    for [url]: the parser made is the same. *)
Theorem init_None_is_absent
    (super_init : gmap string pyval -> ArgumentParser)
    (kwargs : gmap string pyval) :
  __init__ super_init (<[ "ver" := PNone ]> kwargs)
  = __init__ super_init (delete "ver" kwargs)
  /\ __init__ super_init (<[ "url" := PNone ]> kwargs)
     = __init__ super_init (delete "url" kwargs).
Proof.
  rewrite !init_fields. split.
  - rewrite delete_insert_eq, delete_delete_eq.
    rewrite lookup_insert_eq, lookup_delete_eq.
    rewrite lookup_insert_ne by discriminate.
    now rewrite lookup_delete_ne by discriminate.
  - rewrite (delete_insert_ne kwargs "ver" "url") by discriminate.
    rewrite delete_insert_eq.
    rewrite (delete_delete kwargs "ver" "url"), delete_delete_eq.
    rewrite lookup_insert_eq, lookup_delete_eq.
    rewrite lookup_insert_ne by discriminate.
    now rewrite lookup_delete_ne by discriminate.
Qed.

(** X4: the usage banner starts with the version banner: what
    [print_usage] writes is two spaces, the line [print_version] writes,
    and the URL line. *)
Theorem usage_starts_with_version_banner (self : CustomArgParser)
    (file : option stream) (w : world) :
  exists line,
    print_version colour self w = (Return tt, put Stdout line w)
    /\ print_usage colour self file w
       = (Return tt,
          put (default Stdout file)
            ("  " +:+ line +:+ "  " +:+ py_str (_url self) +:+ nl) w).
Proof.
  exists (colour (banner self) "blue" +:+ nl). split; [reflexivity|].
  rewrite print_usage_run. unfold usage_text.
  now rewrite (append_assoc (colour (banner self) "blue") nl).
Qed.

End MoreParserProperties.

(** ** Properties of the help text *)

Section HelpProperties.

Variable upper : string -> string.
Variable format_help : CustomArgParser -> string.

(** X5: on an empty help text [print_help] raises [IndexError] and writes
    nothing; on any other help text it makes one write, to the given
    stream or to standard output, of the text with [upper] applied to its
    first character only and a newline added, so a text whose first
    character [upper] leaves alone is written as it is. *)
Theorem print_help_first_character (self : CustomArgParser)
    (file : option stream) (w : world) :
  (format_help self = "" ->
   print_help upper format_help self file w
   = (Raise (Raised Exception "IndexError" "string index out of range"), w))
  /\ (forall c rest,
        format_help self = String c rest ->
        print_help upper format_help self file w
        = (Return tt,
           put (default Stdout file) (upper (String c "") +:+ rest +:+ nl) w)
        /\ (upper (String c "") = String c "" ->
            print_help upper format_help self file w
            = (Return tt,
               put (default Stdout file) (format_help self +:+ nl) w))).
Proof.
  split.
  - intros Hempty. unfold print_help. now rewrite Hempty.
  - intros c rest Htext.
    assert (Hrun : print_help upper format_help self file w
                   = (Return tt,
                      put (default Stdout file)
                        (upper (String c "") +:+ rest +:+ nl) w)).
    { unfold print_help. rewrite Htext. now destruct file. }
    split; [exact Hrun|].
    intros Hsame. now rewrite Hrun, Hsame, Htext.
Qed.

End HelpProperties.

(** ** Further properties of the run guard *)

Section MoreGuardProperties.

Variable colour : string -> string -> string.
Variable format_exc : exn -> string.

Lemma jam_body_empty_argv (parser : CustomArgParser) (title version : string)
    (block : nat -> M unit) (w : world) :
  w_argv w = [] ->
  jam_body colour parser title version block w
  = (Raise (Raised Exception "IndexError" "list index out of range"), w).
Proof.
  intros Hargv. unfold jam_body, bind, get_argv. now rewrite Hargv.
Qed.

(** A handler never returns, and what it raises is an exit or an
    exception that no clause matches. *)
Lemma jam_handlers_raise (e : exn) (w : world) :
  exists e' w',
    jam_handlers format_exc e w = (Raise e', w')
    /\ match e' with
       | Raised KeyboardInterrupt _ _
       | Raised JAMException _ _
       | Raised Exception _ _ => False
       | SystemExit _
       | Raised BaseException _ _ => True
       end.
Proof.
  destruct e as [code | [] name msg].
  - now exists (SystemExit code), w.
  - eexists (SystemExit 1), _. now rewrite handle_interrupt.
  - eexists (SystemExit 1), _. now rewrite handle_domain.
  - eexists (SystemExit 1), _. now rewrite handle_unexpected.
  - now exists (Raised BaseException name msg), w.
Qed.

(** X6: a [KeyboardInterrupt] in the block: the default channel gets the
    one line about the keyboard interrupt, at error level, the warnings
    channel gets nothing, and the guard leaves with [SystemExit(1)]. *)
Theorem keyboard_interrupt_logged (parser : CustomArgParser)
    (title version : string) (block : nat -> M unit) (w w1 : world)
    (first : string) (ns : Namespace) (name msg : string) :
  w_argv w !! 1 = Some first ->
  is_version_flag first = false ->
  ap_grammar (base parser) (drop 1 (w_argv w)) = Accept ns ->
  block (S (length (w_heap w))) (at_yield title version ns w)
  = (Raise (Raised KeyboardInterrupt name msg), w1) ->
  jam_parser colour format_exc parser title version block w
  = (Raise (SystemExit 1),
     put_default ERROR "Controlled exit resulting from keyboard interrupt."
       w1)
  /\ w_warnings (snd (jam_parser colour format_exc parser title version
                        block w))
     = w_warnings w1.
Proof.
  intros Hfirst Hflag Hacc Hblock.
  rewrite (jam_parser_raise colour format_exc parser title version block w
             w1 (Raised KeyboardInterrupt name msg)).
  - now rewrite handle_interrupt.
  - now rewrite (jam_body_accepted colour parser title version block w first
                   ns Hfirst Hflag Hacc).
Qed.

(** X7: with an empty [sys.argv] the guard does not print the usage
    banner: [sys.argv[1]] raises [IndexError], which the clause for
    [Exception] logs as an unexpected error, and the guard leaves with
    [SystemExit(1)] without having parsed anything. *)
Theorem empty_argv_is_an_unexpected_error (parser : CustomArgParser)
    (title version : string) (block : nat -> M unit) (w : world) :
  w_argv w = [] ->
  jam_parser colour format_exc parser title version block w
  = (Raise (SystemExit 1),
     put_warnings INFO
       (structured_block "IndexError" "list index out of range"
          (format_exc
             (Raised Exception "IndexError" "list index out of range")))
       (put_default ERROR
          "Uncontrolled exit resulting from an unexpected error (see warnings.log)."
          (put_default ERROR "list index out of range" w)))
  /\ w_stdout (snd (jam_parser colour format_exc parser title version
                      block w))
     = w_stdout w
  /\ w_parses (snd (jam_parser colour format_exc parser title version
                      block w))
     = w_parses w.
Proof.
  intros Hargv.
  rewrite (jam_parser_raise colour format_exc parser title version block w
             _ _ (jam_body_empty_argv parser title version block w Hargv)).
  now rewrite handle_unexpected.
Qed.

(** X8: on a command line the grammar rejects, the [SystemExit(2)] of
    [error] passes the guard as it is: the two texts of [error] are on
    standard error, nothing is logged on either channel, [logger_setup] is
    not called, and the block has no part in the outcome. *)
Theorem rejected_command_line_passes_the_guard (parser : CustomArgParser)
    (title version : string) (block : nat -> M unit) (w : world)
    (first message : string) :
  w_argv w !! 1 = Some first ->
  is_version_flag first = false ->
  ap_grammar (base parser) (drop 1 (w_argv w)) = Reject message ->
  jam_parser colour format_exc parser title version block w
  = (Raise (SystemExit 2),
     put Stderr
       (colour ("[" +:+ prog parser +:+ "] Error: " +:+ message +:+ nl) "red"
          +:+ nl)
       (put Stderr (usage_text colour parser) (count_parse w)))
  /\ w_default (snd (jam_parser colour format_exc parser title version
                       block w))
     = w_default w
  /\ w_warnings (snd (jam_parser colour format_exc parser title version
                        block w))
     = w_warnings w
  /\ w_setup (snd (jam_parser colour format_exc parser title version
                     block w))
     = w_setup w.
Proof.
  intros Hfirst Hflag Hrej.
  rewrite (jam_parser_raise colour format_exc parser title version block w
             (put Stderr
                (colour ("[" +:+ prog parser +:+ "] Error: " +:+ message
                           +:+ nl) "red" +:+ nl)
                (put Stderr (usage_text colour parser) (count_parse w)))
             (SystemExit 2)); [now repeat split|].
  now rewrite (jam_body_rejected colour parser title version block w first
                 message Hfirst Hflag Hrej), error_run.
Qed.

Lemma jam_body_with_accepted
    (setup : pyval -> string -> string -> string -> bool -> pyval -> M unit)
    (parser : CustomArgParser) (title version : string)
    (block : nat -> M unit) (w : world) (first : string) (ns : Namespace) :
  w_argv w !! 1 = Some first ->
  is_version_flag first = false ->
  ap_grammar (base parser) (drop 1 (w_argv w)) = Accept ns ->
  jam_body_with colour setup parser title version block w
  = (setup (default PNone (ns !! "out_dir")) (title +:+ ".log") title version
       false (default (PBool false) (ns !! "debug")) ;;;
     yielded <- parse_args colour parser ;;
     block yielded)
      (new_namespace ns (count_parse w)).
Proof.
  intros Hfirst Hflag Hacc. unfold jam_body_with, bind at 1, get_argv.
  rewrite (second_argument _ _ Hfirst), Hfirst, Hflag.
  unfold bind at 1. rewrite (parse_args_accepted colour parser ns w Hacc).
  unfold bind at 1, getattr at 1. cbn [w_heap new_namespace count_parse].
  rewrite list_lookup_middle by reflexivity. cbn [mbind option_bind].
  unfold bind at 1, getattr at 1. cbn [w_heap new_namespace count_parse].
  rewrite list_lookup_middle by reflexivity. cbn [mbind option_bind].
  reflexivity.
Qed.

(** X9: on an accepted command line the guard calls the logging set-up
    once, after the first parse and before anything else, with the output
    directory and the debug flag of the namespace ([None] and [False] when
    it lacks them), the file name [<title>.log], the title, the version
    and [False]; the second parse and the block come after it, all under
    the handlers.  Nothing is assumed of the set-up: when it raises, its
    exception goes to the handlers and the block does not start.  With the
    recording set-up this is [jam_parser]. *)
Theorem logging_set_up_before_block
    (setup : pyval -> string -> string -> string -> bool -> pyval -> M unit)
    (parser : CustomArgParser) (title version : string)
    (block : nat -> M unit) (w : world) (first : string) (ns : Namespace) :
  w_argv w !! 1 = Some first ->
  is_version_flag first = false ->
  ap_grammar (base parser) (drop 1 (w_argv w)) = Accept ns ->
  jam_parser_with colour format_exc setup parser title version block w
  = try_except
      (setup (default PNone (ns !! "out_dir")) (title +:+ ".log") title
         version false (default (PBool false) (ns !! "debug")) ;;;
       yielded <- parse_args colour parser ;;
       block yielded)
      (jam_handlers format_exc)
      (new_namespace ns (count_parse w))
  /\ (forall e w',
        setup (default PNone (ns !! "out_dir")) (title +:+ ".log") title
          version false (default (PBool false) (ns !! "debug"))
          (new_namespace ns (count_parse w))
        = (Raise e, w') ->
        jam_parser_with colour format_exc setup parser title version block w
        = jam_handlers format_exc e w')
  /\ jam_parser_with colour format_exc logger_setup parser title version
       block w
     = jam_parser colour format_exc parser title version block w.
Proof.
  intros Hfirst Hflag Hacc.
  assert (Hrun :
    jam_parser_with colour format_exc setup parser title version block w
    = try_except
        (setup (default PNone (ns !! "out_dir")) (title +:+ ".log") title
           version false (default (PBool false) (ns !! "debug")) ;;;
         yielded <- parse_args colour parser ;;
         block yielded)
        (jam_handlers format_exc)
        (new_namespace ns (count_parse w))).
  { unfold jam_parser_with, try_except.
    now rewrite (jam_body_with_accepted setup parser title version block w
                   first ns Hfirst Hflag Hacc). }
  split; [exact Hrun|]. split; [|reflexivity].
  intros e w' Hraise. rewrite Hrun. unfold try_except, bind.
  now rewrite Hraise.
Qed.


(** X11: the [except] clauses leave [sys.argv], the namespace objects, the
    record of the logging set-up and the count of parses as they were, and
    no record of a channel is lost: what the default and the warnings
    channel held stays, and records are added after it. *)
Theorem handlers_keep_the_records (e : exn) (w : world) :
  w_heap (snd (jam_handlers format_exc e w)) = w_heap w
  /\ w_argv (snd (jam_handlers format_exc e w)) = w_argv w
  /\ w_setup (snd (jam_handlers format_exc e w)) = w_setup w
  /\ w_parses (snd (jam_handlers format_exc e w)) = w_parses w
  /\ w_default w `prefix_of` w_default (snd (jam_handlers format_exc e w))
  /\ w_warnings w `prefix_of` w_warnings (snd (jam_handlers format_exc e w)).
Proof.
  destruct e as [code | [] name msg].
  - now repeat split.
  - rewrite handle_interrupt. cbn. repeat split; try reflexivity.
    now apply prefix_app_r.
  - rewrite handle_domain.
    destruct msg; cbn; repeat split; try reflexivity;
      repeat apply prefix_app_r; reflexivity.
  - rewrite handle_unexpected.
    destruct msg; cbn; repeat split; try reflexivity;
      repeat apply prefix_app_r; reflexivity.
  - now repeat split.
Qed.

(** X12: the guard returns only on one path: [sys.argv] has a first
    argument that is no version flag, the grammar accepts the command
    line, and the block returns; the state is the one the block left. *)
Theorem guard_returns_only_after_block (parser : CustomArgParser)
    (title version : string) (block : nat -> M unit) (w w1 : world) :
  jam_parser colour format_exc parser title version block w
  = (Return tt, w1) ->
  exists first ns,
    w_argv w !! 1 = Some first
    /\ is_version_flag first = false
    /\ ap_grammar (base parser) (drop 1 (w_argv w)) = Accept ns
    /\ block (S (length (w_heap w))) (at_yield title version ns w)
       = (Return tt, w1).
Proof.
  intros Hret. unfold jam_parser, try_except in Hret.
  destruct (jam_body colour parser title version block w) as [[[]|e] w']
    eqn:Hbody.
  - injection Hret as ->.
    destruct (w_argv w) as [|a [|first rest]] eqn:Hargv.
    + rewrite (jam_body_empty_argv parser title version block w Hargv)
        in Hbody. discriminate.
    + rewrite (jam_body_no_arguments colour parser title version block w)
        in Hbody by now rewrite Hargv.
      discriminate.
    + assert (Hfirst : w_argv w !! 1 = Some first) by now rewrite Hargv.
      destruct (is_version_flag first) eqn:Hflag.
      * rewrite (jam_body_version colour parser title version block w first
                   Hfirst Hflag) in Hbody.
        discriminate.
      * destruct (ap_grammar (base parser) (drop 1 (w_argv w)))
          as [ns|message] eqn:Hgrammar.
        -- exists first, ns. rewrite <- Hargv. repeat split; try assumption.
           now rewrite <- (jam_body_accepted colour parser title version
                             block w first ns Hfirst Hflag Hgrammar).
        -- rewrite (jam_body_rejected colour parser title version block w
                      first message Hfirst Hflag Hgrammar), error_run
             in Hbody.
           discriminate.
  - destruct (jam_handlers_raise e w') as (e' & w'' & Hraise & _).
    rewrite Hraise in Hret. discriminate.
Qed.

End MoreGuardProperties.

(** ** The further properties on the sample invocations *)

Lemma print_help_first_character_demo :
  print_help ascii_upper no_help demo None (initial ["demo"; "-h"])
  = (Raise (Raised Exception "IndexError" "string index out of range"),
     initial ["demo"; "-h"])
  /\ print_help ascii_upper usage_help demo None (initial ["demo"; "-h"])
     = (Return tt,
        put Stdout ("Usage: demo [-h] {run}" +:+ nl +:+ nl)
          (initial ["demo"; "-h"])).
Proof.
  split.
  - exact (proj1 (print_help_first_character ascii_upper no_help demo None
                    (initial ["demo"; "-h"])) eq_refl).
  - exact (proj1 (proj2 (print_help_first_character ascii_upper usage_help
                           demo None (initial ["demo"; "-h"]))
                    "u"%char ("sage: demo [-h] {run}" +:+ nl) eq_refl)).
Defined.

Lemma keyboard_interrupt_logged_demo :
  jam_parser plain short_trace demo "demo" "1.2.3" interrupted
    (initial ["demo"; "run"])
  = (Raise (SystemExit 1),
     put_default ERROR "Controlled exit resulting from keyboard interrupt."
       (at_yield "demo" "1.2.3" run_namespace (initial ["demo"; "run"])))
  /\ w_warnings (snd (jam_parser plain short_trace demo "demo" "1.2.3"
                        interrupted (initial ["demo"; "run"])))
     = [].
Proof.
  exact (keyboard_interrupt_logged plain short_trace demo "demo" "1.2.3"
           interrupted (initial ["demo"; "run"])
           (at_yield "demo" "1.2.3" run_namespace (initial ["demo"; "run"]))
           "run" run_namespace "KeyboardInterrupt" ""
           eq_refl eq_refl eq_refl eq_refl).
Defined.

Lemma empty_argv_is_an_unexpected_error_demo :
  w_default (snd (jam_parser plain short_trace demo "demo" "1.2.3" mark_seen
                    (initial [])))
  = [ (ERROR, "list index out of range");
      (ERROR,
       "Uncontrolled exit resulting from an unexpected error (see warnings.log).") ]
  /\ w_stdout (snd (jam_parser plain short_trace demo "demo" "1.2.3"
                      mark_seen (initial [])))
     = [].
Proof.
  destruct (empty_argv_is_an_unexpected_error plain short_trace demo "demo"
              "1.2.3" mark_seen (initial []) eq_refl) as (Hrun & Hout & _).
  split; [now rewrite Hrun | exact Hout].
Defined.

Lemma rejected_command_line_passes_the_guard_demo :
  jam_parser plain short_trace demo "demo" "1.2.3" mark_seen
    (initial ["demo"; "fly"])
  = (Raise (SystemExit 2),
     put Stderr ("[demo] Error: invalid choice" +:+ nl +:+ nl)
       (put Stderr
          ("  demo v1.2.3" +:+ nl +:+ "  https://demo.example" +:+ nl)
          (count_parse (initial ["demo"; "fly"])))).
Proof.
  exact (proj1 (rejected_command_line_passes_the_guard plain short_trace demo
                  "demo" "1.2.3" mark_seen (initial ["demo"; "fly"]) "fly"
                  "invalid choice" eq_refl eq_refl eq_refl)).
Defined.

Lemma logging_set_up_before_block_demo :
  jam_parser_with plain short_trace failing_setup demo "demo" "1.2.3"
    mark_seen (initial ["demo"; "run"])
  = jam_handlers short_trace
      (Raised Exception "PermissionError" "cannot create the directory")
      (new_namespace run_namespace (count_parse (initial ["demo"; "run"]))).
Proof.
  exact (proj1 (proj2 (logging_set_up_before_block plain short_trace
                         failing_setup demo "demo" "1.2.3" mark_seen
                         (initial ["demo"; "run"]) "run" run_namespace
                         eq_refl eq_refl eq_refl))
           (Raised Exception "PermissionError" "cannot create the directory")
           (new_namespace run_namespace
              (count_parse (initial ["demo"; "run"])))
           eq_refl).
Defined.

Lemma guard_returns_only_after_block_demo :
  exists first ns,
    ["demo"; "run"] !! 1 = Some first
    /\ is_version_flag first = false
    /\ demo_grammar ["run"] = Accept ns
    /\ ret tt (at_yield "demo" "1.2.3" ns (initial ["demo"; "run"]))
       = (Return tt,
          at_yield "demo" "1.2.3" run_namespace (initial ["demo"; "run"])).
Proof.
  exact (guard_returns_only_after_block plain short_trace demo "demo" "1.2.3"
           (fun _ => ret tt) (initial ["demo"; "run"])
           (at_yield "demo" "1.2.3" run_namespace (initial ["demo"; "run"]))
           eq_refl).
Defined.
